(** * PasswordResetService (src/src/password-reset/password-reset.service.ts)

    A shallow embedding of the password-reset service of noddit-server:
    [forgotPassword], [resetPassword] and their private helpers
    ([resetUserPassword], [url], [hashedToken], [isResetValid]).

    The service is async code that awaits repository and mailer calls and
    throws NestJS exceptions.  It is modelled in a state-and-exception monad
    [M]: the state is the content of the two tables it touches ([users],
    [passwordreset]) and the mailer's outbox; an exception leaves the state
    as it is at the point of the throw (nothing is rolled back, as in the
    source, which uses no transaction).  The behaviour of the outside world
    during one call (a store fault, a mailer fault, the expiry default the
    database assigns) is an explicit [Env] argument.

    The crypto primitives are opaque: [hmac] stands for
    [createHmac('sha256', key).update(msg).digest('hex')] and [argon2_hash]
    for argon2's [hash]; [hmacSecret] and [host] are the values read from
    [ConfigService]. *)

From Stdlib Require Import String Ascii List Bool Arith NArith ZArith Lia.
From Stdlib Require Import Classical_Prop.
Import ListNotations.
Open Scope string_scope.

(* ------------------------------------------------------------------ *)
(** ** Data model *)

(** [UserEntity]: the columns the service reads or writes. *)
Record UserEntity := mkUser {
  user_id : nat;
  user_email : string;
  user_password : string;
  user_deletedAt : option string
}.

(** [PasswordResetEntity]: [reset.user.id] is kept as [reset_userId];
    [token] is the stored digest, [expiredAt] the stored expiry string
    (compared as a string in [isResetValid]). *)
Record PasswordResetEntity := mkReset {
  reset_id : nat;
  reset_userId : nat;
  reset_token : string;
  reset_expiredAt : string
}.

Record Mail := mkMail {
  mail_to : string;
  mail_subject : string;
  mail_text : string
}.

Record State := mkState {
  st_users : list UserEntity;
  st_resets : list PasswordResetEntity;
  st_next_reset_id : nat;
  st_outbox : list Mail
}.

(** The outside world during one call. *)
Record Env := mkEnv {
  env_reset_save_fault : bool;   (* passwordResetRepository.save fails (not a unique violation) *)
  env_user_save_fault : bool;    (* userRepository.save fails *)
  env_mail_fault : bool;         (* mailerService.sendMail rejects *)
  env_default_expiredAt : string (* the expiredAt the database assigns on insert *)
}.

(** What can be thrown out of the service. *)
Inductive Exn :=
| NotFoundException (msg : string)
| ConflictException (msg : string)
| InternalServerErrorException
| BadRequestException (msg : string)
| RangeError                     (* crypto.timingSafeEqual on buffers of different length *)
| QueryFailedError (code : string) (* an error raised by a repository *)
| MailerError.

(** [err.code] as read in the [catch] of [forgotPassword]. *)
Definition err_code (e : Exn) : option string :=
  match e with
  | QueryFailedError c => Some c
  | _ => None
  end.

(** The single error [resetPassword] throws on every validation failure. *)
Definition InvalidToken : Exn := BadRequestException "Invalid password reset token".

(* ------------------------------------------------------------------ *)
(** ** State and exception monad *)

Definition M (A : Type) : Type := State -> (Exn + A) * State.

Definition ret {A} (a : A) : M A := fun s => (inr a, s).
Definition throw {A} (e : Exn) : M A := fun s => (inl e, s).
Definition bind {A B} (m : M A) (k : A -> M B) : M B :=
  fun s => match m s with
           | (inl e, s') => (inl e, s')
           | (inr a, s') => k a s'
           end.
(** [try { m } catch (err) { h(err) }] *)
Definition catch {A} (m : M A) (h : Exn -> M A) : M A :=
  fun s => match m s with
           | (inl e, s') => h e s'
           | r => r
           end.

Notation "x <- m ;; k" := (bind m (fun x => k))
  (at level 61, m at next level, right associativity).

(* ------------------------------------------------------------------ *)
(** ** Strings and bytes as the runtime has them *)

(** [Buffer.from(s)]: the bytes of a string (the strings compared are hex
    digests, whose characters are one byte each). *)
Definition Buffer_from (s : string) : list ascii := list_ascii_of_string s.

Fixpoint bytes_eqb (a b : list ascii) : bool :=
  match a, b with
  | [], [] => true
  | x :: a', y :: b' => Ascii.eqb x y && bytes_eqb a' b'
  | _, _ => false
  end.

(** [crypto.timingSafeEqual(a, b)]: throws a RangeError when the buffers
    have different byte lengths, compares them otherwise. *)
Definition timingSafeEqual (a b : list ascii) : M bool :=
  if Nat.eqb (length a) (length b) then ret (bytes_eqb a b) else throw RangeError.

(** JavaScript [a < b] on two strings: lexicographic on code units. *)
Fixpoint js_string_lt (a b : string) : bool :=
  match a, b with
  | EmptyString, EmptyString => false
  | EmptyString, String _ _ => true
  | String _ _, EmptyString => false
  | String c a', String d b' =>
      if Nat.ltb (nat_of_ascii c) (nat_of_ascii d) then true
      else if Nat.ltb (nat_of_ascii d) (nat_of_ascii c) then false
      else js_string_lt a' b'
  end.

(** JavaScript [a > b] on two strings. *)
Definition js_string_gt (a b : string) : bool := js_string_lt b a.

(** Decimal rendering of a number, as in a template literal. *)
Fixpoint digits_aux (fuel n : nat) (acc : string) : string :=
  match fuel with
  | 0 => acc
  | S f =>
      let acc' := String (ascii_of_nat (48 + n mod 10)) acc in
      if Nat.ltb n 10 then acc' else digits_aux f (n / 10) acc'
  end.

Definition string_of_nat (n : nat) : string := digits_aux (S n) n "".

(* ------------------------------------------------------------------ *)
(** ** Repositories and mailer *)

(** [userRepository.findOne({ email })] *)
Definition findUserByEmail (email : string) : M (option UserEntity) :=
  fun s => (inr (find (fun u => String.eqb (user_email u) email) (st_users s)), s).

(** The query builder of [resetPassword]:
    [users.id = :userId AND users.deletedAt IS NULL], [getOne()]. *)
Definition findActiveUserById (userId : nat) : M (option UserEntity) :=
  fun s => (inr (find (fun u => Nat.eqb (user_id u) userId
                                && match user_deletedAt u with None => true | Some _ => false end)
                      (st_users s)), s).

(** [passwordResetRepository.findOne(id)] *)
Definition findResetById (id : nat) : M (option PasswordResetEntity) :=
  fun s => (inr (find (fun r => Nat.eqb (reset_id r) id) (st_resets s)), s).

(** Modelled from the spec: the uniqueness constraint on the owning account
    of a password reset (declared by [PasswordResetEntity], which is not
    under src/): an insert for an account that already has a row fails with
    the Postgres unique-violation code ["23505"].  The database assigns the
    id and the [expiredAt] default. *)
Definition saveReset (env : Env) (userId : nat) (token : string) : M PasswordResetEntity :=
  fun s =>
    if env_reset_save_fault env then (inl (QueryFailedError "08006"), s)
    else if existsb (fun r => Nat.eqb (reset_userId r) userId) (st_resets s)
    then (inl (QueryFailedError "23505"), s)
    else
      let r := mkReset (st_next_reset_id s) userId token (env_default_expiredAt env) in
      (inr r, mkState (st_users s) (r :: st_resets s) (S (st_next_reset_id s)) (st_outbox s)).

(** [userRepository.save(user)] on a loaded user: an UPDATE of its row. *)
Definition saveUser (env : Env) (user : UserEntity) : M unit :=
  fun s =>
    if env_user_save_fault env then (inl (QueryFailedError "08006"), s)
    else (inr tt, mkState (map (fun u => if Nat.eqb (user_id u) (user_id user) then user else u)
                               (st_users s))
                          (st_resets s) (st_next_reset_id s) (st_outbox s)).

(** [mailerService.sendMail(m)] *)
Definition sendMail (env : Env) (m : Mail) : M unit :=
  fun s =>
    if env_mail_fault env then (inl MailerError, s)
    else (inr tt, mkState (st_users s) (st_resets s) (st_next_reset_id s) (st_outbox s ++ [m])).

(** [passwordResetRepository.createQueryBuilder('passwordreset')
       .where('"passwordreset"."userId" = :userId', { userId }).delete()]:
    a [DeleteQueryBuilder] value.  TypeORM runs the query only on
    [.execute()]; a query builder is not a promise, so [Promise.all]
    resolves it to itself. *)
Record DeleteQueryBuilder := mkDeleteQuery { dq_userId : nat }.

(** What [.execute()] on that builder would do: delete every row of the
    account. *)
Definition executeDelete (q : DeleteQueryBuilder) : M unit :=
  fun s => (inr tt, mkState (st_users s)
                            (filter (fun r => negb (Nat.eqb (reset_userId r) (dq_userId q))) (st_resets s))
                            (st_next_reset_id s) (st_outbox s)).

(* ------------------------------------------------------------------ *)
(** ** The service *)

Section Service.

Variable hmac : string -> string -> string.
Variable hmacSecret : string.
Variable argon2_hash : string -> string.
Variable host : string.

(** [hashedToken] *)
Definition hashedToken (plaintextToken : string) : string := hmac hmacSecret plaintextToken.

(** [url] *)
Definition url (resetId : nat) (plaintextToken : string) : string :=
  host ++ "/password/reset?id=" ++ string_of_nat resetId ++ "&token=" ++ plaintextToken.

(** [isResetValid]; [now] is [DateTime.local().toString()]. *)
Definition isResetValid (now plaintextToken : string) (reset : PasswordResetEntity) : M bool :=
  let hash := hashedToken plaintextToken in
  eq <- timingSafeEqual (Buffer_from hash) (Buffer_from (reset_token reset)) ;;
  ret (eq && js_string_gt (reset_expiredAt reset) now).

(** [forgotPassword]; [token] is the value [plaintextToken()] draws
    ([randomBytes(32).toString('hex')]). *)
Definition forgotPassword (env : Env) (token email : string) : M string :=
  user <- findUserByEmail email ;;
  match user with
  | None => throw (NotFoundException "User not found")
  | Some user =>
      savedReset <- catch (saveReset env (user_id user) (hashedToken token))
                          (fun err =>
                             match err_code err with
                             | Some c => if String.eqb c "23505"
                                         then throw (ConflictException "Password reset email has already been sent")
                                         else throw InternalServerErrorException
                             | None => throw InternalServerErrorException
                             end) ;;
      _ <- sendMail env (mkMail email "Reset your password" (url (reset_id savedReset) token)) ;;
      ret ("Email sent to " ++ user_email user)
  end.

(** [resetUserPassword] *)
Definition resetUserPassword (env : Env) (user : UserEntity) (password : string) : M string :=
  let user' := mkUser (user_id user) (user_email user) (argon2_hash password) (user_deletedAt user) in
  _ <- saveUser env user' ;;
  ret "Password reset successfully".

(** [resetPassword]; [now] is [DateTime.local().toString()].
    [Promise.all([resetUserPassword(user, password), <delete query builder>])]:
    the first element is the only promise; the second is the builder,
    created and never executed. *)
Definition resetPassword (env : Env) (now : string) (id : nat) (token password : string) : M string :=
  reset <- findResetById id ;;
  match reset with
  | None => throw InvalidToken
  | Some reset =>
      valid <- isResetValid now token reset ;;
      if negb valid then throw InvalidToken else
      user <- findActiveUserById (reset_userId reset) ;;
      match user with
      | None => throw InvalidToken
      | Some user =>
          let _deleteQuery := mkDeleteQuery (reset_userId reset) in
          res <- resetUserPassword env user password ;;
          _ <- sendMail env (mkMail (user_email user) "Password reset"
                                    "Your password was successfully reset") ;;
          ret res
      end
  end.

End Service.

(** The causes for which a redemption is refused: no row with the given
    id; a row whose digest differs from the token's; a row whose expiry
    check fails; a row whose account is absent or soft-deleted. *)
Definition failure_cause (hmac : string -> string -> string) (hmacSecret : string)
    (now : string) (id : nat) (token : string) (s : State) : Prop :=
  find (fun r => Nat.eqb (reset_id r) id) (st_resets s) = None \/
  exists r, find (fun r => Nat.eqb (reset_id r) id) (st_resets s) = Some r /\
    (hashedToken hmac hmacSecret token <> reset_token r \/
     js_string_gt (reset_expiredAt r) now = false \/
     find (fun u => Nat.eqb (user_id u) (reset_userId r)
                    && match user_deletedAt u with None => true | Some _ => false end)
          (st_users s) = None).

(** Every stored digest is 64 characters long, as [hashedToken] writes it. *)
Definition wf_digests (s : State) : Prop :=
  Forall (fun r => String.length (reset_token r) = 64) (st_resets s).

(* ------------------------------------------------------------------ *)
(** ** Timestamps as luxon renders them *)

(** A local date-time with its UTC offset in minutes, as a luxon
    [DateTime] carries it. *)
Record DateTime := mkDateTime {
  dt_year : nat; dt_month : nat; dt_day : nat;
  dt_hour : nat; dt_minute : nat; dt_second : nat; dt_millis : nat;
  dt_offset : Z
}.

Fixpoint zeros (k : nat) : string :=
  match k with 0 => "" | S k' => String "0" (zeros k') end.

Definition pad (k n : nat) : string :=
  let s := string_of_nat n in zeros (k - String.length s) ++ s.

Definition offset_string (o : Z) : string :=
  (if Z.ltb o 0 then "-" else "+") ++ pad 2 (Z.to_nat (Z.abs o) / 60) ++ ":"
  ++ pad 2 (Z.to_nat (Z.abs o) mod 60).

(** [DateTime.toString()] (ISO 8601, e.g. [2026-10-25T02:15:00.000+01:00]). *)
Definition toISO (d : DateTime) : string :=
  pad 4 (dt_year d) ++ "-" ++ pad 2 (dt_month d) ++ "-" ++ pad 2 (dt_day d) ++ "T"
  ++ pad 2 (dt_hour d) ++ ":" ++ pad 2 (dt_minute d) ++ ":" ++ pad 2 (dt_second d)
  ++ "." ++ pad 3 (dt_millis d) ++ offset_string (dt_offset d).

Section Civil.
Local Open Scope Z_scope.

(** Days since 1970-01-01 of a proleptic Gregorian date. *)
Definition days_from_civil (y m d : Z) : Z :=
  let y' := if Z.leb m 2 then y - 1 else y in
  let era := y' / 400 in
  let yoe := y' - era * 400 in
  let doy := (153 * (if Z.ltb 2 m then m - 3 else m + 9) + 2) / 5 + d - 1 in
  let doe := yoe * 365 + yoe / 4 - yoe / 100 + doy in
  era * 146097 + doe - 719468.

(** The instant a date-time denotes, in milliseconds since the epoch. *)
Definition epoch_ms (d : DateTime) : Z :=
  let days := days_from_civil (Z.of_nat (dt_year d)) (Z.of_nat (dt_month d)) (Z.of_nat (dt_day d)) in
  let minutes := (days * 24 + Z.of_nat (dt_hour d)) * 60 + Z.of_nat (dt_minute d) - dt_offset d in
  (minutes * 60 + Z.of_nat (dt_second d)) * 1000 + Z.of_nat (dt_millis d).

End Civil.

(* ------------------------------------------------------------------ *)
(** ** Concrete instances for runs of the model *)

Definition hex_digit (n : nat) : ascii :=
  if Nat.ltb n 10 then ascii_of_nat (48 + n) else ascii_of_nat (87 + n).

Fixpoint checksum (s : string) (acc : N) : N :=
  match s with
  | EmptyString => acc
  | String c s' => checksum s' ((acc * 31 + N_of_ascii c) mod 65521)%N
  end.

Fixpoint hex_fill (n : nat) (seed : N) : string :=
  match n with
  | 0 => ""
  | S n' => String (hex_digit (N.to_nat (seed mod 16))) (hex_fill n' ((seed * 7 + 13) mod 65521)%N)
  end.

(** A stand-in for HMAC-SHA256 in concrete runs: a deterministic function
    of key and message with a 64-character lowercase hex output. *)
Definition sample_hmac (key msg : string) : string := hex_fill 64 (checksum (key ++ msg) 7%N).

Definition sample_argon2 (password : string) : string := "$argon2i$" ++ password.

Definition sample_env : Env := mkEnv false false false "".

Definition sample_key : string := "hmac-secret".
Definition sample_host : string := "https://noddit.example".

Definition u1 : UserEntity := mkUser 1 "u1@example.com" "$argon2i$OldPass" None.

(** The end-to-end scenario of the spec: [u1] holds one reset request,
    id 1, for the plaintext token ["tok"], unexpired at [sample_now]. *)
Definition sample_now : string := "2026-10-18T12:00:00.000+00:00".
Definition sample_reset : PasswordResetEntity :=
  mkReset 1 1 (hashedToken sample_hmac sample_key "tok") "2026-10-18T13:00:00.000+00:00".
Definition sample_state : State := mkState [u1] [sample_reset] 2 [].

(** An account on a server in a zone with daylight saving time: the
    request was issued at 01:30+02:00 on the night the clocks go back and
    expires one hour later, at 02:30+02:00 (00:30 UTC); the redemption
    comes at 02:15+01:00 (01:15 UTC), 45 minutes after the expiry. *)
Definition dst_expiry : DateTime := mkDateTime 2026 10 25 2 30 0 0 120.
Definition dst_now : DateTime := mkDateTime 2026 10 25 2 15 0 0 60.
Definition dst_state : State :=
  mkState [u1] [mkReset 1 1 (hashedToken sample_hmac sample_key "tok") (toISO dst_expiry)] 2 [].

(** A request row whose stored digest, ["abcd"], is not 64 characters
    long. *)
Definition short_digest_state : State :=
  mkState [u1] [mkReset 1 1 "abcd" "2026-10-18T13:00:00.000+00:00"] 2 [].

(** Inputs for the runs below: [u1] with no request yet, and a store and
    mailer that work, with a one-hour expiry default. *)
Definition fresh_state : State := mkState [u1] [] 1 [].
Definition fresh_env : Env := mkEnv false false false "2026-10-18T13:00:00.000+00:00".

(* ------------------------------------------------------------------ *)
(** ** Auxiliary notions for the properties below *)

(** A string without ['&']: it cannot swallow the next query parameter. *)
Fixpoint amp_free (s : string) : bool :=
  match s with
  | EmptyString => true
  | String c s' => negb (Ascii.eqb c "&") && amp_free s'
  end.

(** The number a string of decimal digits denotes (read left to right). *)
Fixpoint digits_value (s : string) (acc : nat) : nat :=
  match s with
  | EmptyString => acc
  | String c s' => digits_value s' (acc * 10 + (nat_of_ascii c - 48))
  end.

(** Every stored reset id is below the next id the store assigns. *)
Definition ids_below_next (s : State) : Prop :=
  Forall (fun r => reset_id r < st_next_reset_id s) (st_resets s).

(** The conditions under which a redemption passes validation. *)
Definition redeemable_by (hmac : string -> string -> string) (hmacSecret : string)
    (now : string) (id : nat) (token : string) (s : State)
    (r : PasswordResetEntity) (u : UserEntity) : Prop :=
  find (fun r => Nat.eqb (reset_id r) id) (st_resets s) = Some r /\
  hashedToken hmac hmacSecret token = reset_token r /\
  js_string_gt (reset_expiredAt r) now = true /\
  find (fun u => Nat.eqb (user_id u) (reset_userId r)
                 && match user_deletedAt u with None => true | Some _ => false end)
       (st_users s) = Some u.

(** The users table after the password of [u] is set to [hashed]: the
    UPDATE by id that [userRepository.save] issues. *)
Definition users_with_password (users : list UserEntity) (u : UserEntity) (hashed : string) :=
  map (fun x => if Nat.eqb (user_id x) (user_id u)
                then mkUser (user_id u) (user_email u) hashed (user_deletedAt u) else x) users.

(** Every string of [n] characters, over the 256 byte values. *)
Definition all_ascii : list ascii := map ascii_of_nat (seq 0 256).

Fixpoint all_strings (n : nat) : list string :=
  match n with
  | 0 => [""]
  | S n => flat_map (fun c => map (String c) (all_strings n)) all_ascii
  end.

(** The string of [n] copies of ["a"]. *)
Fixpoint a_string (n : nat) : string :=
  match n with
  | 0 => ""
  | S n => String "a" (a_string n)
  end.

(* ------------------------------------------------------------------ *)
(** ** Lemmas on the runtime primitives *)

Lemma length_Buffer_from : forall s, length (Buffer_from s) = String.length s.
Proof.
  induction s as [|c s IH]; simpl; [reflexivity | now rewrite IH].
Qed.

Lemma bytes_eqb_Buffer_from : forall a b,
  bytes_eqb (Buffer_from a) (Buffer_from b) = String.eqb a b.
Proof.
  induction a as [|c a IH]; destruct b as [|d b]; simpl; try reflexivity.
  unfold Buffer_from in IH. rewrite IH.
  destruct (Ascii.eqb_spec c d); destruct (String.eqb_spec a b);
    destruct (String.eqb_spec (String c a) (String d b)); simpl; congruence.
Qed.

Lemma in_all_ascii : forall c, In c all_ascii.
Proof.
  intros c. unfold all_ascii. rewrite <- (ascii_nat_embedding c).
  apply in_map, in_seq. pose proof (nat_ascii_bounded c). lia.
Qed.

Lemma in_all_strings : forall s, In s (all_strings (String.length s)).
Proof.
  induction s as [|c s IH]; cbn [String.length all_strings]; [left; reflexivity |].
  apply in_flat_map. exists c. split; [apply in_all_ascii | apply in_map, IH].
Qed.

Lemma a_string_length : forall n, String.length (a_string n) = n.
Proof. induction n as [|n IH]; cbn; [reflexivity | now rewrite IH]. Qed.

(** Pigeonhole: a function on strings whose results all have the same
    length is not injective. *)
Lemma fixed_length_collision : forall (f : string -> string) n,
  (forall m, String.length (f m) = n) ->
  exists t t', t <> t' /\ f t = f t'.
Proof.
  intros f n Hf.
  set (D := map a_string (seq 0 (S (length (all_strings n))))).
  apply NNPP. intros Hno.
  assert (Hnd : NoDup (map f D)).
  { apply NoDup_map_NoDup_ForallPairs.
    - intros x y _ _ E. destruct (string_dec x y) as [Exy | Nxy]; [exact Exy |].
      exfalso. apply Hno. exists x, y. split; assumption.
    - unfold D. apply NoDup_map_NoDup_ForallPairs; [| apply seq_NoDup].
      intros x y _ _ E. rewrite <- (a_string_length x), <- (a_string_length y), E.
      reflexivity. }
  assert (Hincl : incl (map f D) (all_strings n)).
  { intros y Hy. apply in_map_iff in Hy. destruct Hy as [x [<- _]].
    rewrite <- (Hf x). apply in_all_strings. }
  pose proof (NoDup_incl_length Hnd Hincl) as Hl.
  unfold D in Hl. rewrite !length_map, length_seq in Hl. lia.
Qed.

(** Case analysis on the first [match] of a hypothesis. *)
Ltac split_match H :=
  match type of H with
  | context [match ?x with _ => _ end] =>
      lazymatch type of x with
      | bool => destruct x eqn:?
      | option _ => destruct x eqn:?
      end
  end.

(** Run a computation hypothesis [H : m s = (r, s')] down all its branches,
    closing the branches whose outcome contradicts [H]. *)
Ltac run_cases H :=
  repeat (cbn -[String.eqb js_string_gt hashedToken] in H;
          first [ discriminate H
                | injection H; clear H; intros; subst; auto
                | split_match H ]).

(* ------------------------------------------------------------------ *)
(** ** Properties of the service *)

Section Claims.

Variable hmac : string -> string -> string.
Variable hmacSecret : string.
Variable argon2_hash : string -> string.
Variable host : string.

(** C10: whenever [resetPassword] fails with the generic invalid-token
    error, it has modified nothing: no password written, no reset row
    removed, no mail sent. *)
Theorem resetPassword_InvalidToken_leaves_state :
  forall env now id token password s s',
    resetPassword hmac hmacSecret argon2_hash env now id token password s = (inl InvalidToken, s') ->
    s' = s.
Proof.
  intros env now id token password s s' H.
  unfold resetPassword, bind, findResetById, isResetValid, timingSafeEqual,
    findActiveUserById, resetUserPassword, saveUser, sendMail, ret, throw in H.
  run_cases H.
Qed.

(** The two possible outcomes of [isResetValid]. *)
Lemma isResetValid_spec : forall now token r s,
  isResetValid hmac hmacSecret now token r s =
  (if Nat.eqb (String.length (hashedToken hmac hmacSecret token)) (String.length (reset_token r))
   then inr (String.eqb (hashedToken hmac hmacSecret token) (reset_token r)
             && js_string_gt (reset_expiredAt r) now)
   else inl RangeError, s).
Proof.
  intros now token r s.
  unfold isResetValid, timingSafeEqual, bind, ret, throw.
  rewrite !length_Buffer_from, bytes_eqb_Buffer_from.
  destruct (Nat.eqb _ _); reflexivity.
Qed.

(** C3 (amended): each failure cause of a redemption (unknown id, digest
    mismatch, failed expiry check, absent or soft-deleted account) yields
    the same generic invalid-token error and leaves the state as it was,
    except when a row is found whose stored digest differs in length from
    the recomputed one: then [timingSafeEqual] raises a RangeError,
    whatever the other causes. *)
Theorem resetPassword_failure_causes_outcome :
  forall env now id token password s,
    failure_cause hmac hmacSecret now id token s ->
    resetPassword hmac hmacSecret argon2_hash env now id token password s =
    (inl (match find (fun r => Nat.eqb (reset_id r) id) (st_resets s) with
          | None => InvalidToken
          | Some r =>
              if Nat.eqb (String.length (hashedToken hmac hmacSecret token))
                         (String.length (reset_token r))
              then InvalidToken else RangeError
          end), s).
Proof.
  intros env now id token password s Hc.
  destruct Hc as [Hnone | [r [Hr Hc]]].
  - unfold resetPassword, bind, findResetById, throw. cbn. rewrite Hnone. reflexivity.
  - rewrite Hr.
    unfold resetPassword, bind at 1, findResetById. cbn. rewrite Hr.
    unfold bind at 1. rewrite isResetValid_spec.
    destruct (Nat.eqb _ _); [| reflexivity].
    cbn -[String.eqb js_string_gt hashedToken].
    destruct Hc as [Hne | [Hexp | Hnu]].
    + apply String.eqb_neq in Hne. rewrite Hne. reflexivity.
    + rewrite Hexp, andb_false_r. reflexivity.
    + destruct (_ && _); [| reflexivity].
      unfold bind, findActiveUserById. cbn. rewrite Hnu. reflexivity.
Qed.

(** C4 (amended): the verification step returns a boolean when the
    recomputed digest and the stored digest have the same length (false
    when their bytes differ), and raises the RangeError of
    [timingSafeEqual] when they differ in length; [resetPassword] then
    fails with that RangeError, not with the invalid-token error, and
    changes nothing. *)
Theorem isResetValid_length_outcomes : forall env now id token password r s,
  find (fun r => Nat.eqb (reset_id r) id) (st_resets s) = Some r ->
  (String.length (hashedToken hmac hmacSecret token) = String.length (reset_token r) ->
   isResetValid hmac hmacSecret now token r s
   = (inr (String.eqb (hashedToken hmac hmacSecret token) (reset_token r)
           && js_string_gt (reset_expiredAt r) now), s)) /\
  (String.length (hashedToken hmac hmacSecret token) <> String.length (reset_token r) ->
   isResetValid hmac hmacSecret now token r s = (inl RangeError, s) /\
   resetPassword hmac hmacSecret argon2_hash env now id token password s = (inl RangeError, s)).
Proof.
  intros env now id token password r s Hr. split.
  - intros Hlen. rewrite isResetValid_spec, Hlen, Nat.eqb_refl. reflexivity.
  - intros Hlen. apply Nat.eqb_neq in Hlen.
    assert (Hv : isResetValid hmac hmacSecret now token r s = (inl RangeError, s))
      by (rewrite isResetValid_spec, Hlen; reflexivity).
    split; [exact Hv |].
    unfold resetPassword, bind at 1, findResetById. cbn. rewrite Hr.
    unfold bind at 1. rewrite Hv. reflexivity.
Qed.

(** C5 (amended): on a found request, a stored digest of another length
    than the recomputed one raises a RangeError whatever the expiry and the
    account; with equal lengths, a digest mismatch or a stored [expiredAt]
    string not greater, in JavaScript string order, than
    [DateTime.local().toString()] is refused with the generic
    invalid-token error whatever the account, even when the digest
    matches exactly.  The account is consulted only after both checks
    pass. *)
Theorem resetPassword_expiry_string_refused :
  forall env now id token password s r,
    find (fun r => Nat.eqb (reset_id r) id) (st_resets s) = Some r ->
    (String.length (hashedToken hmac hmacSecret token) <> String.length (reset_token r) ->
     resetPassword hmac hmacSecret argon2_hash env now id token password s = (inl RangeError, s)) /\
    (String.length (hashedToken hmac hmacSecret token) = String.length (reset_token r) ->
     hashedToken hmac hmacSecret token <> reset_token r \/
     js_string_gt (reset_expiredAt r) now = false ->
     resetPassword hmac hmacSecret argon2_hash env now id token password s = (inl InvalidToken, s)).
Proof.
  intros env now id token password s r Hr.
  split; intros Hlen;
    unfold resetPassword, bind at 1, findResetById; cbn -[hashedToken]; rewrite Hr;
    unfold bind at 1; rewrite isResetValid_spec.
  - apply Nat.eqb_neq in Hlen. rewrite Hlen. reflexivity.
  - intros Hc. rewrite Hlen, Nat.eqb_refl.
    destruct Hc as [Hne | Hexp].
    + apply String.eqb_neq in Hne. rewrite Hne. reflexivity.
    + rewrite Hexp, andb_false_r. reflexivity.
Qed.

(** C7 (amended): [hashedToken] is deterministic, so a token [t] verifies
    against the stored digest [hashedToken t] (the step then returns the
    expiry check); a token [t'] verifies against [hashedToken t] exactly
    when [hashedToken t' = hashedToken t]; and since every digest is 64
    characters long, some [t' <> t] has the same digest as [t], and is
    accepted. *)
Theorem token_verification_by_digest :
  (forall m, String.length (hmac hmacSecret m) = 64) ->
  (forall t r now s, reset_token r = hashedToken hmac hmacSecret t ->
     isResetValid hmac hmacSecret now t r s = (inr (js_string_gt (reset_expiredAt r) now), s)) /\
  (forall t t' r now s, reset_token r = hashedToken hmac hmacSecret t ->
     isResetValid hmac hmacSecret now t' r s
     = (inr (String.eqb (hashedToken hmac hmacSecret t') (hashedToken hmac hmacSecret t)
             && js_string_gt (reset_expiredAt r) now), s)) /\
  (exists t t', t <> t' /\ hashedToken hmac hmacSecret t' = hashedToken hmac hmacSecret t).
Proof.
  intros Hhmac. split; [| split].
  - intros t r now s Hr. rewrite isResetValid_spec, Hr, Nat.eqb_refl, String.eqb_refl.
    reflexivity.
  - intros t t' r now s Hr. rewrite isResetValid_spec, Hr.
    unfold hashedToken at 1 3. rewrite !Hhmac, Nat.eqb_refl. reflexivity.
  - destruct (fixed_length_collision (hmac hmacSecret) 64 Hhmac) as [t [t' [Hne He]]].
    exists t, t'. split; [exact Hne | symmetry; exact He].
Qed.

(** A successful redemption leaves the reset rows as they were. *)
Lemma resetPassword_ok_keeps_resets : forall env now id token password s m s',
  resetPassword hmac hmacSecret argon2_hash env now id token password s = (inr m, s') ->
  st_resets s' = st_resets s.
Proof.
  intros env now id token password s m s' H.
  unfold resetPassword, bind, findResetById, isResetValid, timingSafeEqual,
    findActiveUserById, resetUserPassword, saveUser, sendMail, ret, throw in H.
  run_cases H.
Qed.

(** C8: for an email with no account, [forgotPassword] fails with
    NotFound and changes nothing: no reset row, no mail. *)
Theorem forgotPassword_unknown_email_NotFound : forall env token email s,
  find (fun u => String.eqb (user_email u) email) (st_users s) = None ->
  forgotPassword hmac hmacSecret host env token email s
  = (inl (NotFoundException "User not found"), s).
Proof.
  intros env token email s Hnone.
  unfold forgotPassword, bind, findUserByEmail, throw. cbn. rewrite Hnone. reflexivity.
Qed.

(** C6: for an account that already has a reset row, a further
    [forgotPassword] fails with Conflict (the unique violation ["23505"]
    mapped by the [catch]) and changes nothing: no row created or
    overwritten, no mail with a second token. *)
Theorem forgotPassword_pending_Conflict : forall env token email s u r,
  find (fun u => String.eqb (user_email u) email) (st_users s) = Some u ->
  In r (st_resets s) ->
  reset_userId r = user_id u ->
  env_reset_save_fault env = false ->
  forgotPassword hmac hmacSecret host env token email s
  = (inl (ConflictException "Password reset email has already been sent"), s).
Proof.
  intros env token email s u r Hu Hin Hr Hfault.
  assert (Hex : existsb (fun r => Nat.eqb (reset_userId r) (user_id u)) (st_resets s) = true).
  { apply existsb_exists. exists r. split; [exact Hin | apply Nat.eqb_eq; exact Hr]. }
  unfold forgotPassword, bind, findUserByEmail, catch, saveReset. cbn. rewrite Hu.
  rewrite Hfault, Hex. reflexivity.
Qed.

(** C9: when the mail fails after the reset row was saved, the error is
    surfaced and the saved row stays in the store as written. *)
Theorem forgotPassword_mail_failure_keeps_row : forall env token email s u,
  find (fun u => String.eqb (user_email u) email) (st_users s) = Some u ->
  existsb (fun r => Nat.eqb (reset_userId r) (user_id u)) (st_resets s) = false ->
  env_reset_save_fault env = false ->
  env_mail_fault env = true ->
  forgotPassword hmac hmacSecret host env token email s
  = (inl MailerError,
     mkState (st_users s)
             (mkReset (st_next_reset_id s) (user_id u) (hashedToken hmac hmacSecret token)
                      (env_default_expiredAt env) :: st_resets s)
             (S (st_next_reset_id s)) (st_outbox s)).
Proof.
  intros env token email s u Hu Hex Hfault Hmail.
  unfold forgotPassword, bind, findUserByEmail, catch, saveReset, sendMail. cbn. rewrite Hu.
  rewrite Hfault, Hex. cbn. rewrite Hmail. reflexivity.
Qed.

(** [forgotPassword] keeps every stored digest 64 characters long. *)
Lemma forgotPassword_preserves_wf_digests : forall env token email s,
  (forall m, String.length (hmac hmacSecret m) = 64) ->
  wf_digests s ->
  wf_digests (snd (forgotPassword hmac hmacSecret host env token email s)).
Proof.
  intros env token email s Hhmac Hwf.
  unfold forgotPassword, bind, findUserByEmail, catch, saveReset, sendMail, ret, throw.
  cbn. destruct (find _ _); cbn; [|exact Hwf].
  destruct (env_reset_save_fault env); cbn.
  - exact Hwf.
  - destruct (existsb _ _); cbn.
    + exact Hwf.
    + assert (Hnew : wf_digests (mkState (st_users s)
               (mkReset (st_next_reset_id s) (user_id u) (hashedToken hmac hmacSecret token)
                        (env_default_expiredAt env) :: st_resets s)
               (S (st_next_reset_id s)) (st_outbox s))).
      { constructor; [apply Hhmac | exact Hwf]. }
      destruct (env_mail_fault env); exact Hnew.
Qed.

(** [resetPassword] never changes the reset rows, so it keeps the stored
    digests as they are. *)
Lemma resetPassword_preserves_resets : forall env now id token password s,
  st_resets (snd (resetPassword hmac hmacSecret argon2_hash env now id token password s))
  = st_resets s.
Proof.
  intros env now id token password s.
  destruct (resetPassword hmac hmacSecret argon2_hash env now id token password s) as [res s'] eqn:H.
  cbn. unfold resetPassword, bind, findResetById, isResetValid, timingSafeEqual,
    findActiveUserById, resetUserPassword, saveUser, sendMail, ret, throw in H.
  run_cases H.
Qed.

End Claims.

(* ------------------------------------------------------------------ *)
(** ** Decimal rendering and the reset link *)

Lemma string_append_cancel_l : forall a b c, (a ++ b = a ++ c)%string -> b = c.
Proof.
  induction a as [|x a IH]; simpl; intros b c H; [exact H | injection H; apply IH].
Qed.

Lemma string_append_assoc : forall a b c, ((a ++ b) ++ c = a ++ (b ++ c))%string.
Proof.
  induction a as [|x a IH]; simpl; intros b c; [reflexivity | now rewrite IH].
Qed.

Lemma digits_value_app : forall a b k,
  digits_value (a ++ b) k = digits_value b (digits_value a k).
Proof.
  induction a as [|x a IH]; simpl; intros b k; [reflexivity | apply IH].
Qed.

Lemma digits_aux_app : forall f n acc,
  digits_aux f n acc = (digits_aux f n "" ++ acc)%string.
Proof.
  induction f as [|f IH]; intros n acc; simpl; [reflexivity |].
  destruct (Nat.ltb n 10); [reflexivity |].
  rewrite (IH (n / 10) (String _ acc)), (IH (n / 10) (String _ "")).
  rewrite string_append_assoc. reflexivity.
Qed.

Lemma digit_char_value : forall n, nat_of_ascii (ascii_of_nat (48 + n mod 10)) = 48 + n mod 10.
Proof.
  intros n. apply nat_ascii_embedding.
  pose proof (Nat.mod_upper_bound n 10). lia.
Qed.

Lemma digits_aux_value : forall f n, n < f -> digits_value (digits_aux f n "") 0 = n.
Proof.
  induction f as [|f IH]; intros n Hn; [lia |]. cbn [digits_aux].
  pose proof (Nat.div_mod_eq n 10) as Hdm.
  destruct (Nat.ltb_spec n 10) as [Hlt|Hge].
  - cbn [digits_value]. rewrite digit_char_value. rewrite Nat.mod_small by exact Hlt. lia.
  - rewrite digits_aux_app, digits_value_app, IH.
    + cbn [digits_value]. rewrite digit_char_value. lia.
    + apply Nat.Div0.div_lt_upper_bound; lia.
Qed.

Lemma string_of_nat_value : forall n, digits_value (string_of_nat n) 0 = n.
Proof. intros n. apply digits_aux_value. lia. Qed.

Lemma string_of_nat_inj : forall n m, string_of_nat n = string_of_nat m -> n = m.
Proof.
  intros n m H. rewrite <- (string_of_nat_value n), <- (string_of_nat_value m), H. reflexivity.
Qed.

Lemma digit_char_not_amp : forall n, Ascii.eqb (ascii_of_nat (48 + n mod 10)) "&" = false.
Proof.
  intros n. destruct (Ascii.eqb_spec (ascii_of_nat (48 + n mod 10)) "&") as [E|E]; [|reflexivity].
  apply (f_equal nat_of_ascii) in E. rewrite digit_char_value in E. cbn in E. lia.
Qed.

Lemma digits_aux_amp_free : forall f n acc, amp_free (digits_aux f n acc) = amp_free acc.
Proof.
  induction f as [|f IH]; intros n acc; cbn [digits_aux]; [reflexivity |].
  destruct (Nat.ltb n 10); [| rewrite IH]; cbn [amp_free]; rewrite digit_char_not_amp; reflexivity.
Qed.

Lemma string_of_nat_amp_free : forall n, amp_free (string_of_nat n) = true.
Proof. intros n. unfold string_of_nat. now rewrite digits_aux_amp_free. Qed.

(** Two ['&']-free strings followed by ["&..."] split the same way. *)
Lemma split_at_amp : forall d1 d2 t1 t2,
  amp_free d1 = true -> amp_free d2 = true ->
  (d1 ++ String "&" t1 = d2 ++ String "&" t2)%string -> d1 = d2 /\ t1 = t2.
Proof.
  induction d1 as [|c d1 IH]; intros d2 t1 t2 H1 H2 H; destruct d2 as [|e d2]; simpl in *.
  - injection H; auto.
  - injection H as <- _. discriminate H2.
  - injection H as -> _. discriminate H1.
  - apply andb_prop in H1, H2. destruct H1 as [_ H1], H2 as [_ H2].
    injection H as <- H. destruct (IH d2 t1 t2 H1 H2 H) as [-> ->]. auto.
Qed.

(* ------------------------------------------------------------------ *)
(** ** Further properties of the service *)

Section Service_properties.

Variable hmac : string -> string -> string.
Variable hmacSecret : string.
Variable argon2_hash : string -> string.
Variable host : string.

Lemma find_in_some : forall {A} (f : A -> bool) l x,
  In x l -> f x = true -> exists y, find f l = Some y.
Proof.
  intros A f l x. induction l as [|y l IH]; simpl; [contradiction |].
  intros [<-|Hin] Hx.
  - rewrite Hx. eauto.
  - destruct (f y); eauto.
Qed.

(** Once the request row is saved, [forgotPassword] only mails the link. *)
Lemma forgotPassword_saved_eq : forall env token email s u,
  find (fun u => String.eqb (user_email u) email) (st_users s) = Some u ->
  existsb (fun r => Nat.eqb (reset_userId r) (user_id u)) (st_resets s) = false ->
  env_reset_save_fault env = false ->
  forgotPassword hmac hmacSecret host env token email s
  = (_ <- sendMail env (mkMail email "Reset your password" (url host (st_next_reset_id s) token)) ;;
     ret ("Email sent to " ++ user_email u))
      (mkState (st_users s)
               (mkReset (st_next_reset_id s) (user_id u) (hashedToken hmac hmacSecret token)
                        (env_default_expiredAt env) :: st_resets s)
               (S (st_next_reset_id s)) (st_outbox s)).
Proof.
  intros env token email s u Hu Hex Hfault.
  unfold forgotPassword, bind at 1, findUserByEmail. cbn. rewrite Hu.
  unfold bind at 1, catch, saveReset. rewrite Hfault, Hex. reflexivity.
Qed.

(** Once the token is validated, [resetPassword] writes the password and
    mails the confirmation. *)
Lemma resetPassword_valid_eq : forall env now id token password s r u,
  find (fun r => Nat.eqb (reset_id r) id) (st_resets s) = Some r ->
  hashedToken hmac hmacSecret token = reset_token r ->
  js_string_gt (reset_expiredAt r) now = true ->
  find (fun u => Nat.eqb (user_id u) (reset_userId r)
                 && match user_deletedAt u with None => true | Some _ => false end)
       (st_users s) = Some u ->
  resetPassword hmac hmacSecret argon2_hash env now id token password s
  = (res <- resetUserPassword argon2_hash env u password ;;
     _ <- sendMail env (mkMail (user_email u) "Password reset" "Your password was successfully reset") ;;
     ret res) s.
Proof.
  intros env now id token password s r u Hr Hdig Hexp Hu.
  unfold resetPassword, bind at 1, findResetById. cbn. rewrite Hr.
  unfold bind at 1. rewrite isResetValid_spec, <- Hdig, Nat.eqb_refl, String.eqb_refl, Hexp.
  cbn -[resetUserPassword sendMail]. unfold bind at 1, findActiveUserById. cbn -[resetUserPassword sendMail].
  rewrite Hu. reflexivity.
Qed.

(** The emailed link determines the reset id and the plaintext token. *)
Theorem url_injective : forall id token id' token',
  url host id token = url host id' token' -> id = id' /\ token = token'.
Proof.
  intros id token id' token' H. unfold url in H.
  apply string_append_cancel_l, string_append_cancel_l in H.
  apply split_at_amp in H; [| apply string_of_nat_amp_free | apply string_of_nat_amp_free].
  destruct H as [Hid Ht]. split; [now apply string_of_nat_inj |].
  injection Ht. auto.
Qed.

(** The outcome of [forgotPassword] when the save and the mail succeed. *)
Lemma forgotPassword_ok_eq : forall env token email s u,
  find (fun u => String.eqb (user_email u) email) (st_users s) = Some u ->
  existsb (fun r => Nat.eqb (reset_userId r) (user_id u)) (st_resets s) = false ->
  env_reset_save_fault env = false ->
  env_mail_fault env = false ->
  forgotPassword hmac hmacSecret host env token email s
  = (inr ("Email sent to " ++ user_email u),
     mkState (st_users s)
             (mkReset (st_next_reset_id s) (user_id u) (hashedToken hmac hmacSecret token)
                      (env_default_expiredAt env) :: st_resets s)
             (S (st_next_reset_id s))
             (st_outbox s ++ [mkMail email "Reset your password" (url host (st_next_reset_id s) token)])).
Proof.
  intros env token email s u Hu Hex Hfault Hmail.
  rewrite (forgotPassword_saved_eq env token email s u Hu Hex Hfault).
  unfold bind, sendMail, ret. cbn. rewrite Hmail. reflexivity.
Qed.

(** A successful [forgotPassword] stores one new row (the next id, the
    account, the token's digest, the database's expiry default), mails the
    link with that id and the plaintext token to the address given, and
    reports the account's address. *)
Theorem forgotPassword_success : forall env token email s u,
  find (fun u => String.eqb (user_email u) email) (st_users s) = Some u ->
  existsb (fun r => Nat.eqb (reset_userId r) (user_id u)) (st_resets s) = false ->
  env_reset_save_fault env = false ->
  env_mail_fault env = false ->
  forgotPassword hmac hmacSecret host env token email s
  = (inr ("Email sent to " ++ user_email u),
     mkState (st_users s)
             (mkReset (st_next_reset_id s) (user_id u) (hashedToken hmac hmacSecret token)
                      (env_default_expiredAt env) :: st_resets s)
             (S (st_next_reset_id s))
             (st_outbox s ++ [mkMail email "Reset your password" (url host (st_next_reset_id s) token)])).
Proof.
  intros env token email s u Hu Hex Hfault Hmail.
  exact (forgotPassword_ok_eq env token email s u Hu Hex Hfault Hmail).
Qed.

(** A store failure other than the unique violation surfaces as an
    internal server error and leaves everything as it was. *)
Theorem forgotPassword_store_fault_InternalServerError : forall env token email s u,
  find (fun u => String.eqb (user_email u) email) (st_users s) = Some u ->
  env_reset_save_fault env = true ->
  forgotPassword hmac hmacSecret host env token email s = (inl InternalServerErrorException, s).
Proof.
  intros env token email s u Hu Hfault.
  unfold forgotPassword, bind, findUserByEmail, catch, saveReset. cbn. rewrite Hu, Hfault.
  reflexivity.
Qed.

(** The outcome of a validated [resetPassword] when the save and the mail succeed. *)
Lemma resetPassword_ok_eq : forall env now id token password s r u,
  redeemable_by hmac hmacSecret now id token s r u ->
  env_user_save_fault env = false ->
  env_mail_fault env = false ->
  resetPassword hmac hmacSecret argon2_hash env now id token password s
  = (inr "Password reset successfully",
     mkState (users_with_password (st_users s) u (argon2_hash password))
             (st_resets s) (st_next_reset_id s)
             (st_outbox s ++ [mkMail (user_email u) "Password reset" "Your password was successfully reset"])).
Proof.
  intros env now id token password s r u (Hr & Hdig & Hexp & Hu) Hsave Hmail.
  rewrite (resetPassword_valid_eq env now id token password s r u Hr Hdig Hexp Hu).
  unfold bind, resetUserPassword, saveUser, sendMail, ret. cbn. rewrite Hsave. cbn.
  rewrite Hmail. reflexivity.
Qed.

(** A validated redemption with a working store and mailer stores the
    argon2 hash of the new password on the account, keeps every reset row,
    mails the confirmation to the account's address and answers
    ["Password reset successfully"]. *)
Theorem resetPassword_success : forall env now id token password s r u,
  redeemable_by hmac hmacSecret now id token s r u ->
  env_user_save_fault env = false ->
  env_mail_fault env = false ->
  resetPassword hmac hmacSecret argon2_hash env now id token password s
  = (inr "Password reset successfully",
     mkState (users_with_password (st_users s) u (argon2_hash password))
             (st_resets s) (st_next_reset_id s)
             (st_outbox s ++ [mkMail (user_email u) "Password reset" "Your password was successfully reset"])).
Proof.
  intros env now id token password s r u Hred Hsave Hmail.
  exact (resetPassword_ok_eq env now id token password s r u Hred Hsave Hmail).
Qed.

(** When the confirmation mail fails, the error is surfaced but the new
    password stays written. *)
Theorem resetPassword_mail_failure_keeps_password : forall env now id token password s r u,
  redeemable_by hmac hmacSecret now id token s r u ->
  env_user_save_fault env = false ->
  env_mail_fault env = true ->
  resetPassword hmac hmacSecret argon2_hash env now id token password s
  = (inl MailerError,
     mkState (users_with_password (st_users s) u (argon2_hash password))
             (st_resets s) (st_next_reset_id s) (st_outbox s)).
Proof.
  intros env now id token password s r u (Hr & Hdig & Hexp & Hu) Hsave Hmail.
  rewrite (resetPassword_valid_eq env now id token password s r u Hr Hdig Hexp Hu).
  unfold bind, resetUserPassword, saveUser, sendMail, ret. cbn. rewrite Hsave. cbn.
  rewrite Hmail. reflexivity.
Qed.

(** When saving the new password fails, the store's error is surfaced,
    nothing is written and no mail is sent. *)
Theorem resetPassword_save_failure_no_effect : forall env now id token password s r u,
  redeemable_by hmac hmacSecret now id token s r u ->
  env_user_save_fault env = true ->
  resetPassword hmac hmacSecret argon2_hash env now id token password s
  = (inl (QueryFailedError "08006"), s).
Proof.
  intros env now id token password s r u (Hr & Hdig & Hexp & Hu) Hsave.
  rewrite (resetPassword_valid_eq env now id token password s r u Hr Hdig Hexp Hu).
  unfold bind, resetUserPassword, saveUser. cbn. rewrite Hsave. reflexivity.
Qed.

(** [resetPassword] mails exactly once when it succeeds, the confirmation
    to an account's address, and never when it fails. *)
Theorem resetPassword_mails_iff_success : forall env now id token password s,
  match resetPassword hmac hmacSecret argon2_hash env now id token password s with
  | (inr _, s') => exists to, st_outbox s' = (st_outbox s ++
                     [mkMail to "Password reset" "Your password was successfully reset"])%list
  | (inl _, s') => st_outbox s' = st_outbox s
  end.
Proof.
  intros env now id token password s.
  destruct (resetPassword hmac hmacSecret argon2_hash env now id token password s)
    as [[e|m] s'] eqn:H;
  unfold resetPassword, bind, findResetById, isResetValid, timingSafeEqual,
    findActiveUserById, resetUserPassword, saveUser, sendMail, ret, throw in H;
  run_cases H; eexists; reflexivity.
Qed.

(** [forgotPassword] mails exactly once when it succeeds, the link of the
    row it saved to the address given, and never when it fails. *)
Theorem forgotPassword_mails_iff_success : forall env token email s,
  match forgotPassword hmac hmacSecret host env token email s with
  | (inr _, s') => st_outbox s' = (st_outbox s ++
                     [mkMail email "Reset your password" (url host (st_next_reset_id s) token)])%list
  | (inl _, s') => st_outbox s' = st_outbox s
  end.
Proof.
  intros env token email s.
  destruct (forgotPassword hmac hmacSecret host env token email s) as [[e|m] s'] eqn:H;
  unfold forgotPassword, bind, findUserByEmail, catch, saveReset, sendMail, ret, throw in H;
  run_cases H.
Qed.

(** [forgotPassword] never writes to the users table. *)
Theorem forgotPassword_keeps_users : forall env token email s,
  st_users (snd (forgotPassword hmac hmacSecret host env token email s)) = st_users s.
Proof.
  intros env token email s.
  destruct (forgotPassword hmac hmacSecret host env token email s) as [res s'] eqn:H. cbn.
  unfold forgotPassword, bind, findUserByEmail, catch, saveReset, sendMail, ret, throw in H.
  run_cases H.
Qed.

(** Every run of [resetPassword] either leaves the state as it was or
    passed validation and wrote the new password hash on the account. *)
Lemma resetPassword_cases : forall env now id token password s res s',
  resetPassword hmac hmacSecret argon2_hash env now id token password s = (res, s') ->
  s' = s \/
  exists r u, redeemable_by hmac hmacSecret now id token s r u /\
    st_users s' = users_with_password (st_users s) u (argon2_hash password).
Proof.
  intros env now id token password s res s' H.
  unfold resetPassword, bind at 1, findResetById in H. cbn in H.
  destruct (find _ (st_resets s)) as [r|] eqn:Hr;
    [| injection H as _ <-; left; reflexivity].
  unfold bind at 1 in H. rewrite isResetValid_spec in H.
  destruct (Nat.eqb _ _); cbn in H; [| injection H as _ <-; left; reflexivity].
  destruct (String.eqb_spec (hashedToken hmac hmacSecret token) (reset_token r)) as [Hd|Hd];
    cbn in H; [| injection H as _ <-; left; reflexivity].
  destruct (js_string_gt (reset_expiredAt r) now) eqn:Hexp;
    cbn in H; [| injection H as _ <-; left; reflexivity].
  unfold bind at 1, findActiveUserById in H. cbn in H.
  destruct (find _ (st_users s)) as [u|] eqn:Hu; [| injection H as _ <-; left; reflexivity].
  unfold bind, resetUserPassword, saveUser, sendMail, ret in H. cbn in H.
  destruct (env_user_save_fault env); cbn in H; [injection H as _ <-; left; reflexivity |].
  right. exists r, u. split; [repeat split; assumption |].
  destruct (env_mail_fault env); injection H as _ <-; reflexivity.
Qed.

(** The only write [resetPassword] makes to the users table is the argon2
    hash of the new password, on the account of the redeemed request:
    every user row afterwards is either a row from before or a row [u]
    from before, the account of the redeemed request, with its password
    replaced by the new hash and its id, email and deletion mark kept. *)
Theorem resetPassword_writes_only_new_password : forall env now id token password s res s' x,
  resetPassword hmac hmacSecret argon2_hash env now id token password s = (res, s') ->
  In x (st_users s') ->
  In x (st_users s) \/
  exists r u, find (fun r => Nat.eqb (reset_id r) id) (st_resets s) = Some r /\
              In u (st_users s) /\ user_id u = reset_userId r /\
              x = mkUser (user_id u) (user_email u) (argon2_hash password) (user_deletedAt u).
Proof.
  intros env now id token password s res s' x H Hx.
  destruct (resetPassword_cases env now id token password s res s' H)
    as [-> | (r & u & (Hr & Hdig & Hexp & Hu) & Husers)]; [left; exact Hx |].
  rewrite Husers in Hx. unfold users_with_password in Hx.
  apply in_map_iff in Hx. destruct Hx as [y [Hyx Hy]].
  destruct (Nat.eqb_spec (user_id y) (user_id u)) as [E|E]; [| left; congruence].
  right. subst x. exists r, u. apply find_some in Hu. destruct Hu as [Hin Hu].
  apply andb_prop in Hu. destruct Hu as [Hu _]. apply Nat.eqb_eq in Hu.
  repeat split; assumption.
Qed.

(** Issuing and then redeeming compose: after a successful
    [forgotPassword] for an active account with no pending request, the
    id and plaintext token of the mailed link redeem, as long as the
    database's expiry default is later (as a string) than the redemption
    time and the store and mailer work. *)
Theorem forgotPassword_then_resetPassword : forall env1 env2 now token email password s u,
  find (fun u => String.eqb (user_email u) email) (st_users s) = Some u ->
  user_deletedAt u = None ->
  existsb (fun r => Nat.eqb (reset_userId r) (user_id u)) (st_resets s) = false ->
  env_reset_save_fault env1 = false ->
  env_mail_fault env1 = false ->
  js_string_gt (env_default_expiredAt env1) now = true ->
  env_user_save_fault env2 = false ->
  env_mail_fault env2 = false ->
  fst (resetPassword hmac hmacSecret argon2_hash env2 now (st_next_reset_id s) token password
         (snd (forgotPassword hmac hmacSecret host env1 token email s)))
  = inr "Password reset successfully".
Proof.
  intros env1 env2 now token email password s u Hu Hdel Hex Hf1 Hm1 Hexp Hf2 Hm2.
  rewrite (forgotPassword_ok_eq env1 token email s u Hu Hex Hf1 Hm1). cbn [snd].
  assert (Hin : In u (st_users s)) by (apply find_some in Hu; tauto).
  destruct (find_in_some (fun x => Nat.eqb (user_id x) (user_id u)
                                   && match user_deletedAt x with None => true | Some _ => false end)
                         (st_users s) u Hin) as [y Hy].
  { rewrite Nat.eqb_refl, Hdel. reflexivity. }
  erewrite (resetPassword_ok_eq env2 now (st_next_reset_id s) token password _ _ y);
    [reflexivity | | exact Hf2 | exact Hm2].
  repeat split; cbn.
  - rewrite Nat.eqb_refl. reflexivity.
  - reflexivity.
  - exact Hexp.
  - exact Hy.
Qed.

End Service_properties.

(* ------------------------------------------------------------------ *)
(** ** Concrete runs *)

Lemma hex_fill_length : forall n seed, String.length (hex_fill n seed) = n.
Proof.
  induction n as [|n IH]; intros seed; simpl; [reflexivity | now rewrite IH].
Qed.

Lemma sample_hmac_length : forall m, String.length (sample_hmac sample_key m) = 64.
Proof. intros m. apply hex_fill_length. Qed.

(** C1 (code bug): in the spec's end-to-end scenario, a redemption
    succeeds and then the same id and token redeem a second time: the row
    was never deleted. *)
Theorem resetPassword_replay_succeeds :
  let r1 := resetPassword sample_hmac sample_key sample_argon2 sample_env sample_now
                          1 "tok" "NewPass123!" sample_state in
  fst r1 = inr "Password reset successfully" /\
  fst (resetPassword sample_hmac sample_key sample_argon2 sample_env sample_now
                     1 "tok" "Other456!" (snd r1)) = inr "Password reset successfully".
Proof. vm_compute. split; reflexivity. Qed.

(** C2 (code bug): the redemption reports success and sends the
    confirmation mail while the deletion of the account's reset rows was
    never issued: the row is still in the store. *)
Theorem resetPassword_success_without_deletion :
  let r := resetPassword sample_hmac sample_key sample_argon2 sample_env sample_now
                         1 "tok" "NewPass123!" sample_state in
  fst r = inr "Password reset successfully" /\
  st_resets (snd r) = [sample_reset] /\
  st_outbox (snd r) = [mkMail "u1@example.com" "Password reset" "Your password was successfully reset"].
Proof. vm_compute. repeat split; reflexivity. Qed.

Lemma resetPassword_InvalidToken_leaves_state_witness :
  resetPassword sample_hmac sample_key sample_argon2 sample_env sample_now 7 "tok" "x" sample_state
  = (inl InvalidToken, sample_state) /\ sample_state = sample_state.
Proof.
  split; [reflexivity |].
  apply (resetPassword_InvalidToken_leaves_state sample_hmac sample_key sample_argon2
           sample_env sample_now 7 "tok" "x").
  reflexivity.
Defined.

(** The unknown id scenario: id 7 is well formed but names no request. *)
Lemma resetPassword_failure_causes_outcome_witness :
  resetPassword sample_hmac sample_key sample_argon2 sample_env sample_now 7 "tok" "x" sample_state
  = (inl InvalidToken, sample_state).
Proof.
  exact (resetPassword_failure_causes_outcome sample_hmac sample_key sample_argon2
           sample_env sample_now 7 "tok" "x" sample_state (or_introl eq_refl)).
Defined.

(** C3: the stored digest ["abcd"] differs from the token's digest, a
    failure cause, and the redemption raises a RangeError instead of the
    invalid-token error. *)
Lemma resetPassword_short_digest_counterexample :
  failure_cause sample_hmac sample_key sample_now 1 "tok" short_digest_state /\
  resetPassword sample_hmac sample_key sample_argon2 sample_env sample_now 1 "tok" "x"
                short_digest_state = (inl RangeError, short_digest_state).
Proof.
  split; [| vm_compute; reflexivity].
  right. eexists. split; [reflexivity |].
  left. vm_compute. discriminate.
Qed.

(** C4: the plaintext ["tok"] and the stored digest ["abcd"] differ in
    length, and the verification step raises instead of returning false. *)
Lemma isResetValid_length_mismatch_counterexample :
  String.length "tok" <> String.length "abcd" /\
  isResetValid sample_hmac sample_key sample_now "tok"
               (mkReset 1 1 "abcd" "2026-10-18T13:00:00.000+00:00") sample_state
  = (inl RangeError, sample_state).
Proof. split; [discriminate | reflexivity]. Qed.

(** C5: the expiry instant (00:30 UTC) has passed at redemption time
    (01:15 UTC), the digest matches, and the redemption succeeds: the
    string ["2026-10-25T02:30:00.000+02:00"] is greater than
    ["2026-10-25T02:15:00.000+01:00"]. *)
Lemma resetPassword_expired_instant_counterexample :
  (epoch_ms dst_expiry < epoch_ms dst_now)%Z /\
  fst (resetPassword sample_hmac sample_key sample_argon2 sample_env (toISO dst_now)
                     1 "tok" "NewPass123!" dst_state) = inr "Password reset successfully".
Proof. split; vm_compute; reflexivity. Qed.

(** The request row with the digest ["abcd"]: the redemption surfaces the
    RangeError. *)
Lemma isResetValid_length_outcomes_witness :
  resetPassword sample_hmac sample_key sample_argon2 sample_env sample_now 1 "tok" "x"
                short_digest_state = (inl RangeError, short_digest_state).
Proof.
  apply (isResetValid_length_outcomes sample_hmac sample_key sample_argon2 sample_env sample_now
           1 "tok" "x" (mkReset 1 1 "abcd" "2026-10-18T13:00:00.000+00:00") short_digest_state).
  - reflexivity.
  - vm_compute. discriminate.
Defined.

(** An hour after the expiry, in the same offset: refused. *)
Lemma resetPassword_expiry_string_refused_witness :
  resetPassword sample_hmac sample_key sample_argon2 sample_env "2026-10-18T14:00:00.000+00:00"
                1 "tok" "x" sample_state = (inl InvalidToken, sample_state).
Proof.
  apply (resetPassword_expiry_string_refused sample_hmac sample_key sample_argon2
           sample_env "2026-10-18T14:00:00.000+00:00" 1 "tok" "x" sample_state sample_reset).
  - reflexivity.
  - vm_compute. reflexivity.
  - right. vm_compute. reflexivity.
Defined.

(** C7: two different tokens with the same digest under [sample_hmac];
    the second is accepted against the row of the first. *)
Lemma token_verification_collision_counterexample :
  exists t t', t <> t' /\
    isResetValid sample_hmac sample_key sample_now t'
                 (mkReset 1 1 (hashedToken sample_hmac sample_key t) "2026-10-18T13:00:00.000+00:00")
                 sample_state
    = (inr true, sample_state).
Proof.
  destruct (fixed_length_collision (sample_hmac sample_key) 64 sample_hmac_length)
    as [t [t' [Hne He]]].
  exists t, t'. split; [exact Hne |].
  rewrite isResetValid_spec. cbn [reset_token reset_expiredAt]. unfold hashedToken.
  rewrite He, Nat.eqb_refl, String.eqb_refl. reflexivity.
Qed.

Lemma token_verification_by_digest_witness :
  isResetValid sample_hmac sample_key sample_now "tok" sample_reset sample_state
  = (inr (js_string_gt (reset_expiredAt sample_reset) sample_now), sample_state).
Proof.
  exact (proj1 (token_verification_by_digest sample_hmac sample_key sample_hmac_length)
           "tok" sample_reset sample_now sample_state eq_refl).
Defined.

Lemma forgotPassword_unknown_email_NotFound_witness :
  forgotPassword sample_hmac sample_key sample_host sample_env "tok2" "nobody@example.com" sample_state
  = (inl (NotFoundException "User not found"), sample_state).
Proof.
  apply (forgotPassword_unknown_email_NotFound sample_hmac sample_key sample_host sample_env
           "tok2" "nobody@example.com" sample_state).
  reflexivity.
Defined.

Lemma forgotPassword_pending_Conflict_witness :
  forgotPassword sample_hmac sample_key sample_host sample_env "tok2" "u1@example.com" sample_state
  = (inl (ConflictException "Password reset email has already been sent"), sample_state).
Proof.
  apply (forgotPassword_pending_Conflict sample_hmac sample_key sample_host sample_env
           "tok2" "u1@example.com" sample_state u1 sample_reset).
  - reflexivity.
  - left. reflexivity.
  - reflexivity.
  - reflexivity.
Defined.

Lemma forgotPassword_mail_failure_keeps_row_witness :
  forgotPassword sample_hmac sample_key sample_host (mkEnv false false true "2026-10-18T13:00:00.000+00:00")
                 "tok" "u1@example.com" (mkState [u1] [] 1 [])
  = (inl MailerError,
     mkState [u1] [mkReset 1 1 (hashedToken sample_hmac sample_key "tok") "2026-10-18T13:00:00.000+00:00"]
             2 []).
Proof.
  apply (forgotPassword_mail_failure_keeps_row sample_hmac sample_key sample_host
           (mkEnv false false true "2026-10-18T13:00:00.000+00:00") "tok" "u1@example.com"
           (mkState [u1] [] 1 []) u1); reflexivity.
Defined.


Lemma url_injective_witness :
  12 = 12 /\ "abc" = "abc".
Proof.
  apply (url_injective sample_host 12 "abc" 12 "abc"). reflexivity.
Defined.

Lemma forgotPassword_success_witness :
  forgotPassword sample_hmac sample_key sample_host fresh_env "tok" "u1@example.com" fresh_state
  = (inr "Email sent to u1@example.com",
     mkState [u1] [mkReset 1 1 (hashedToken sample_hmac sample_key "tok") "2026-10-18T13:00:00.000+00:00"]
             2 [mkMail "u1@example.com" "Reset your password"
                       (url sample_host 1 "tok")]).
Proof.
  apply (forgotPassword_success sample_hmac sample_key sample_host fresh_env "tok" "u1@example.com"
           fresh_state u1); reflexivity.
Defined.

Lemma forgotPassword_store_fault_InternalServerError_witness :
  forgotPassword sample_hmac sample_key sample_host (mkEnv true false false "") "tok"
                 "u1@example.com" fresh_state
  = (inl InternalServerErrorException, fresh_state).
Proof.
  apply (forgotPassword_store_fault_InternalServerError sample_hmac sample_key sample_host
           (mkEnv true false false "") "tok" "u1@example.com" fresh_state u1); reflexivity.
Defined.

Lemma resetPassword_success_witness :
  resetPassword sample_hmac sample_key sample_argon2 sample_env sample_now 1 "tok" "NewPass123!"
                sample_state
  = (inr "Password reset successfully",
     mkState (users_with_password [u1] u1 (sample_argon2 "NewPass123!")) [sample_reset] 2
             [mkMail "u1@example.com" "Password reset" "Your password was successfully reset"]).
Proof.
  apply (resetPassword_success sample_hmac sample_key sample_argon2 sample_env sample_now 1 "tok"
           "NewPass123!" sample_state sample_reset u1);
    [repeat split; vm_compute; reflexivity | reflexivity | reflexivity].
Defined.

Lemma resetPassword_mail_failure_keeps_password_witness :
  resetPassword sample_hmac sample_key sample_argon2 (mkEnv false false true "") sample_now 1 "tok"
                "NewPass123!" sample_state
  = (inl MailerError,
     mkState (users_with_password [u1] u1 (sample_argon2 "NewPass123!")) [sample_reset] 2 []).
Proof.
  apply (resetPassword_mail_failure_keeps_password sample_hmac sample_key sample_argon2
           (mkEnv false false true "") sample_now 1 "tok" "NewPass123!" sample_state sample_reset u1);
    [repeat split; vm_compute; reflexivity | reflexivity | reflexivity].
Defined.

Lemma resetPassword_save_failure_no_effect_witness :
  resetPassword sample_hmac sample_key sample_argon2 (mkEnv false true false "") sample_now 1 "tok"
                "NewPass123!" sample_state
  = (inl (QueryFailedError "08006"), sample_state).
Proof.
  apply (resetPassword_save_failure_no_effect sample_hmac sample_key sample_argon2
           (mkEnv false true false "") sample_now 1 "tok" "NewPass123!" sample_state sample_reset u1);
    [repeat split; vm_compute; reflexivity | reflexivity].
Defined.

Lemma resetPassword_writes_only_new_password_witness :
  In (mkUser 1 "u1@example.com" (sample_argon2 "NewPass123!") None) (st_users sample_state) \/
  exists r u, find (fun r => Nat.eqb (reset_id r) 1) (st_resets sample_state) = Some r /\
              In u (st_users sample_state) /\ user_id u = reset_userId r /\
              mkUser 1 "u1@example.com" (sample_argon2 "NewPass123!") None
              = mkUser (user_id u) (user_email u) (sample_argon2 "NewPass123!") (user_deletedAt u).
Proof.
  apply (resetPassword_writes_only_new_password sample_hmac sample_key sample_argon2 sample_env
           sample_now 1 "tok" "NewPass123!" sample_state
           (fst (resetPassword sample_hmac sample_key sample_argon2 sample_env sample_now 1 "tok"
                   "NewPass123!" sample_state))
           (snd (resetPassword sample_hmac sample_key sample_argon2 sample_env sample_now 1 "tok"
                   "NewPass123!" sample_state))).
  - reflexivity.
  - vm_compute. left. reflexivity.
Defined.

Lemma forgotPassword_then_resetPassword_witness :
  fst (resetPassword sample_hmac sample_key sample_argon2 sample_env sample_now 1 "tok" "NewPass123!"
         (snd (forgotPassword sample_hmac sample_key sample_host fresh_env "tok" "u1@example.com"
                 fresh_state)))
  = inr "Password reset successfully".
Proof.
  apply (forgotPassword_then_resetPassword sample_hmac sample_key sample_argon2 sample_host
           fresh_env sample_env sample_now "tok" "u1@example.com" "NewPass123!" fresh_state u1);
    vm_compute; reflexivity.
Defined.

Lemma forgotPassword_preserves_wf_digests_witness :
  wf_digests (snd (forgotPassword sample_hmac sample_key sample_host fresh_env "tok"
                     "u1@example.com" fresh_state)).
Proof.
  apply (forgotPassword_preserves_wf_digests sample_hmac sample_key sample_host).
  - exact sample_hmac_length.
  - constructor.
Defined.
